(** * ADIv6 transport-generic functions (src/target/adiv6.c)

    A shallow embedding of the functions of [adiv6.c]: base-address
    discovery ([adiv6_dp_read_base_address], [adiv6_dp_init]), component
    identification ([adiv6_dp_read_id], [adiv6_component_probe]) and the
    AP register proxy ([adiv6_ap_reg_read], [adiv6_ap_reg_write]).

    C integers are [Z] with the wrap-around of their type written out;
    the code runs in a small state monad over the DP handle and a log of
    what the code did to the outside (register accesses, stores into the
    handle, diagnostics). *)

From Stdlib Require Import ZArith List Bool Lia.
From coqutil Require Import Z.bitblast.
Import ListNotations.
Local Open Scope Z_scope.

(** ** Fixed-width unsigned integers *)

Module Int.

(** Conversion to [uint16_t], [uint32_t] and [uint64_t]. *)
Definition u16 (x : Z) : Z := x mod 2 ^ 16.
Definition u32 (x : Z) : Z := x mod 2 ^ 32.
Definition u64 (x : Z) : Z := x mod 2 ^ 64.

Definition is_u16 (x : Z) : Prop := 0 <= x < 2 ^ 16.
Definition is_u32 (x : Z) : Prop := 0 <= x < 2 ^ 32.
Definition is_u64 (x : Z) : Prop := 0 <= x < 2 ^ 64.

End Int.
Import Int.

(** ** What the headers provide

    [adiv5.h], [adiv6.h] and [adiv6_internal.h] are not part of the
    sources at hand.  The register numbers, bank numbers and masks they
    define are taken as parameters: every result below holds whatever
    their values are. *)

Class Adiv6Header : Type := {
  ADIV5_DP_SELECT : Z;
  ADIV5_DP_BANK1 : Z;
  ADIV5_DP_BANK2 : Z;
  ADIV5_DP_BANK3 : Z;
  ADIV5_DP_BANK5 : Z;
  ADIV5_APnDP : Z;
  ADIV6_DP_DPIDR1 : Z;
  ADIV6_DP_BASEPTR0 : Z;
  ADIV6_DP_BASEPTR1 : Z;
  ADIV6_DP_SELECT1 : Z;
  ADIV6_DP_DPIDR1_ASIZE_MASK : Z;
  ADIV6_DP_BASE_ADDRESS_MASK : Z;
  ADIV6_AP_BANK_MASK : Z;
  CIDR0_OFFSET : Z;
  CID_CLASS_MASK : Z;
  CID_CLASS_SHIFT : Z;
  CID_PREAMBLE : Z
}.

(** Modelled from the spec: the header constant [ADIV6_DP_BASEPTR0_VALID]
    is missing; the spec's data model says that bit 0 of the low half of
    the base address is the validity flag. *)
Definition ADIV6_DP_BASEPTR0_VALID : Z := 1.

(** ** The DP handle, the AP handle and the log *)

(** The two function-pointer slots of the handle.  A slot holds either
    this file's proxy or some other implementation, told apart by a tag. *)
Inductive ap_read_fn : Type :=
| Adiv6_ap_reg_read
| Other_ap_read (tag : nat).

Inductive ap_write_fn : Type :=
| Adiv6_ap_reg_write
| Other_ap_write (tag : nat).

(** [adiv5_debug_port_s]: the three fields this file assigns, and
    [dp_rest] for all the other fields of the structure, whose
    declaration is in the missing header. *)
Record adiv5_debug_port_s (rest : Type) : Type := {
  ap_read : ap_read_fn;
  ap_write : ap_write_fn;
  address_width : Z;
  dp_rest : rest
}.
Arguments ap_read {rest} _.
Arguments ap_write {rest} _.
Arguments address_width {rest} _.
Arguments dp_rest {rest} _.

(** [adiv6_access_port_s]: [base.dp] points at the one DP handle of the
    state, so only the 64-bit [ap_address] is kept. *)
Record adiv6_access_port_s : Type := {
  ap_address : Z
}.

(** Arguments of the [DEBUG_INFO] and [DEBUG_WARN] calls. *)
Inductive diagnostic : Type :=
| Dpidr1_addressing (dpidr1 width : Z)
| No_valid_base_address
| Bad_base_address (high low : Z)
| Preamble_mismatch (entry_number high low cidr preamble : Z).

Inductive event : Type :=
| DpWrite (addr value : Z)
| DpRead (addr value : Z)
| StoreApRead (f : ap_read_fn)
| StoreApWrite (f : ap_write_fn)
| StoreAddressWidth (width : Z)
| DebugInfo (d : diagnostic)
| DebugWarn (d : diagnostic).

Record world (rest : Type) : Type := {
  handle : adiv5_debug_port_s rest;
  events : list event
}.
Arguments handle {rest} _.
Arguments events {rest} _.

(** ** The state monad the code runs in *)

Definition M (rest A : Type) : Type := world rest -> A * world rest.

Definition ret {rest A} (a : A) : M rest A := fun w => (a, w).

Definition bind {rest A B} (m : M rest A) (k : A -> M rest B) : M rest B :=
  fun w => let (a, w') := m w in k a w'.

Declare Scope adiv6_scope.
Delimit Scope adiv6_scope with adiv6.
Notation "x <- m ;; k" := (bind m (fun x => k))
  (at level 61, m at next level, right associativity) : adiv6_scope.
Notation "m ;;; k" := (bind m (fun _ => k))
  (at level 61, right associativity) : adiv6_scope.
Local Open Scope adiv6_scope.

Definition emit {rest} (e : event) : M rest unit :=
  fun w => (tt, {| handle := handle w; events := events w ++ [e] |}).

Definition get_handle {rest} : M rest (adiv5_debug_port_s rest) :=
  fun w => (handle w, w).

Definition put_handle {rest} (dp : adiv5_debug_port_s rest) : M rest unit :=
  fun w => (tt, {| handle := dp; events := events w |}).

(** Number of register reads made so far. *)
Fixpoint reads_so_far (l : list event) : nat :=
  match l with
  | [] => O
  | DpRead _ _ :: l' => S (reads_so_far l')
  | _ :: l' => reads_so_far l'
  end.

(** ** The code *)

Section Code.

Context {hdr : Adiv6Header} {rest : Type}.

(** The device at the other end of the link: [responses n] is what it
    answers to the [n]-th register read of the session.  The code makes
    its accesses one after the other, so every behaviour of a device is
    such a sequence; results that hold for every [responses] hold for
    every device. *)
Variable responses : nat -> Z.

(** C leaves [x << n] undefined on a 64-bit operand when [n] is 64 or
    more.  [shl64_wide x n] stands for whatever the compiled code
    yields there. *)
Variable shl64_wide : Z -> Z -> Z.

Definition shl64 (x n : Z) : Z :=
  if (0 <=? n) && (n <? 64) then u64 (Z.shiftl x n) else shl64_wide x n.

Definition sub64 (x y : Z) : Z := u64 (x - y).

(** *** Transport primitives *)

(** Modelled from the spec: [adiv5_dp_read] is defined in the missing
    [adiv5.h]; the spec's external interface has it as the blocking
    [dp_read(dp_handle, register_address: u16) -> u32].  The access is
    logged with the value the device answered. *)
Definition adiv5_dp_read (addr : Z) : M rest Z :=
  fun w =>
    let value := u32 (responses (reads_so_far (events w))) in
    (value, {| handle := handle w;
               events := events w ++ [DpRead (u16 addr) value] |}).

(** Modelled from the spec: [adiv5_dp_write] is defined in the missing
    [adiv5.h]; the spec's external interface has it as the blocking
    [dp_write(dp_handle, register_address: u16, value: u32)]. *)
Definition adiv5_dp_write (addr value : Z) : M rest unit :=
  emit (DpWrite (u16 addr) (u32 value)).

(** *** Stores into the DP handle *)

Definition store_ap_read (f : ap_read_fn) : M rest unit :=
  dp <- get_handle ;;
  put_handle {| ap_read := f; ap_write := ap_write dp;
                address_width := address_width dp; dp_rest := dp_rest dp |} ;;;
  emit (StoreApRead f).

Definition store_ap_write (f : ap_write_fn) : M rest unit :=
  dp <- get_handle ;;
  put_handle {| ap_read := ap_read dp; ap_write := f;
                address_width := address_width dp; dp_rest := dp_rest dp |} ;;;
  emit (StoreApWrite f).

Definition store_address_width (width : Z) : M rest unit :=
  dp <- get_handle ;;
  put_handle {| ap_read := ap_read dp; ap_write := ap_write dp;
                address_width := width; dp_rest := dp_rest dp |} ;;;
  emit (StoreAddressWidth width).

(** *** Halves of a 64-bit address *)

(** [(uint32_t)a] *)
Definition low_half (a : Z) : Z := u32 a.

(** [(uint32_t)(a >> 32U)] *)
Definition high_half (a : Z) : Z := u32 (Z.shiftr a 32).

(** [low | ((uint64_t)high << 32U)] *)
Definition combine (low high : Z) : Z :=
  Z.lor (u64 low) (shl64 (u64 high) 32).

(** *** adiv6_dp_read_base_address *)

Definition adiv6_dp_read_base_address : M rest Z :=
  (* BASEPTR0 is on bank 2 *)
  adiv5_dp_write ADIV5_DP_SELECT ADIV5_DP_BANK2 ;;;
  baseptr0 <- adiv5_dp_read ADIV6_DP_BASEPTR0 ;;
  (* BASEPTR1 is on bank 3 *)
  adiv5_dp_write ADIV5_DP_SELECT ADIV5_DP_BANK3 ;;;
  baseptr1 <- adiv5_dp_read ADIV6_DP_BASEPTR1 ;;
  ret (combine baseptr0 baseptr1).

(** *** adiv6_dp_read_id *)

(** The body of [for (size_t i = 0; i < 4U; ++i)], with [n] iterations
    still to run. *)
Fixpoint read_id_loop (n : nat) (i result : Z) : M rest Z :=
  match n with
  | O => ret result
  | S n' =>
      value <- adiv5_dp_read (Z.lor ADIV5_APnDP (Z.shiftl i 2)) ;;
      read_id_loop n' (i + 1)
        (Z.lor result (u32 (Z.shiftl (Z.land value 0xff) (i * 8))))
  end.

Definition adiv6_dp_read_id (ap : adiv6_access_port_s) (addr : Z) : M rest Z :=
  (* Set SELECT1 in the DP up first *)
  adiv5_dp_write ADIV5_DP_SELECT ADIV5_DP_BANK5 ;;;
  adiv5_dp_write ADIV6_DP_SELECT1 (high_half (ap_address ap)) ;;;
  (* Now set up SELECT in the DP *)
  adiv5_dp_write ADIV5_DP_SELECT
    (Z.lor (low_half (ap_address ap)) (Z.land addr 0x0ff0)) ;;;
  read_id_loop 4 0 0.

(** *** adiv6_component_probe *)

Definition adiv6_component_probe (base_address entry_number : Z) : M rest bool :=
  let base_ap := {| ap_address := base_address |} in
  cidr <- adiv6_dp_read_id base_ap CIDR0_OFFSET ;;
  (* CIDR preamble sanity check *)
  if negb (Z.land cidr (Z.lnot CID_CLASS_MASK) =? CID_PREAMBLE) then
    emit (DebugWarn (Preamble_mismatch entry_number (high_half base_address)
                       (low_half base_address) cidr CID_PREAMBLE)) ;;;
    ret false
  else
    (* Extract Component ID class nibble *)
    let cid_class := Z.shiftr (Z.land cidr CID_CLASS_MASK) CID_CLASS_SHIFT in
    ret false.

(** *** adiv6_dp_init *)

(** The type of the [address_width] field is declared in the missing
    header; the masked DPIDR1 value is stored as computed. *)
Definition adiv6_dp_init : M rest bool :=
  store_ap_read Adiv6_ap_reg_read ;;;
  store_ap_write Adiv6_ap_reg_write ;;;
  (* DPIDR1 is on bank 1 *)
  adiv5_dp_write ADIV5_DP_SELECT ADIV5_DP_BANK1 ;;;
  dpidr1 <- adiv5_dp_read ADIV6_DP_DPIDR1 ;;
  store_address_width (Z.land dpidr1 ADIV6_DP_DPIDR1_ASIZE_MASK) ;;;
  dp <- get_handle ;;
  emit (DebugInfo (Dpidr1_addressing dpidr1 (address_width dp))) ;;;
  base_address <- adiv6_dp_read_base_address ;;
  if Z.land base_address ADIV6_DP_BASEPTR0_VALID =? 0 then
    emit (DebugInfo No_valid_base_address) ;;;
    ret false
  else
    dp <- get_handle ;;
    if negb (Z.land base_address (sub64 (shl64 1 (address_width dp)) 1)
             =? base_address) then
      emit (DebugInfo (Bad_base_address (high_half base_address)
                         (low_half base_address))) ;;;
      ret false
    else
      let base_address := u64 (Z.land base_address ADIV6_DP_BASE_ADDRESS_MASK) in
      adiv6_component_probe base_address 0.

(** *** adiv6_ap_reg_read and adiv6_ap_reg_write *)

Definition adiv6_ap_reg_read (ap : adiv6_access_port_s) (addr : Z) : M rest Z :=
  (* Set SELECT1 in the DP up first *)
  adiv5_dp_write ADIV5_DP_SELECT ADIV5_DP_BANK5 ;;;
  adiv5_dp_write ADIV6_DP_SELECT1 (high_half (ap_address ap)) ;;;
  (* Now set up SELECT in the DP *)
  let bank := u16 (Z.land addr ADIV6_AP_BANK_MASK) in
  adiv5_dp_write ADIV5_DP_SELECT
    (Z.lor (Z.lor (low_half (ap_address ap)) (Z.shiftr (Z.land bank 0xf000) 4))
           (Z.land bank 0xf0)) ;;;
  adiv5_dp_read addr.

Definition adiv6_ap_reg_write (ap : adiv6_access_port_s) (addr value : Z)
  : M rest unit :=
  (* Set SELECT1 in the DP up first *)
  adiv5_dp_write ADIV5_DP_SELECT ADIV5_DP_BANK5 ;;;
  adiv5_dp_write ADIV6_DP_SELECT1 (high_half (ap_address ap)) ;;;
  (* Now set up SELECT in the DP *)
  let bank := u16 (Z.land addr ADIV6_AP_BANK_MASK) in
  adiv5_dp_write ADIV5_DP_SELECT
    (Z.lor (Z.lor (low_half (ap_address ap)) (Z.shiftr (Z.land bank 0xf000) 4))
           (Z.land bank 0xf0)) ;;;
  adiv5_dp_write addr value.

End Code.

(** ** A concrete header and device, for running the code on examples *)

Module Sample.

Definition header : Adiv6Header := {|
  ADIV5_DP_SELECT := 0x8;
  ADIV5_DP_BANK1 := 1;
  ADIV5_DP_BANK2 := 2;
  ADIV5_DP_BANK3 := 3;
  ADIV5_DP_BANK5 := 5;
  ADIV5_APnDP := 0x100;
  ADIV6_DP_DPIDR1 := 0x0;
  ADIV6_DP_BASEPTR0 := 0x0;
  ADIV6_DP_BASEPTR1 := 0x0;
  ADIV6_DP_SELECT1 := 0x4;
  ADIV6_DP_DPIDR1_ASIZE_MASK := 0x7f;
  ADIV6_DP_BASE_ADDRESS_MASK := 0xfffffffffffff000;
  ADIV6_AP_BANK_MASK := 0xfff0;
  CIDR0_OFFSET := 0xff0;
  CID_CLASS_MASK := 0x0000f000;
  CID_CLASS_SHIFT := 12;
  CID_PREAMBLE := 0xb105000d
|}.

(** A device that answers the reads of a session from a list, and 0
    once the list is used up. *)
Definition device (answers : list Z) : nat -> Z :=
  fun n => nth n answers 0.

(** Shifts by 64 or more give 0, as the Cortex-M run-time helper does. *)
Definition shl_zero : Z -> Z -> Z := fun _ _ => 0.

(** Shifts by 64 or more use the count modulo 64, as x86-64 does. *)
Definition shl_mod64 : Z -> Z -> Z := fun x n => u64 (Z.shiftl x (n mod 64)).

Definition fresh_handle : adiv5_debug_port_s nat := {|
  ap_read := Other_ap_read 0;
  ap_write := Other_ap_write 0;
  address_width := 0;
  dp_rest := 7%nat
|}.

Definition start : world nat := {| handle := fresh_handle; events := [] |}.

(** 40-bit addressing, base address 0x1000 flagged valid, then the
    four CIDR bytes of a component of class 1. *)
Definition good_device : nat -> Z :=
  device [40; 0x00001001; 0x00000000; 0x0d; 0x10; 0x05; 0xb1].

(** The same with the validity flag of BASEPTR0 clear. *)
Definition invalid_device : nat -> Z :=
  device [40; 0x00001000; 0x00000000; 0x0d; 0x10; 0x05; 0xb1].

(** The same with bit 40 of the base address set. *)
Definition too_wide_device : nat -> Z :=
  device [40; 0x00001001; 0x00000100; 0x0d; 0x10; 0x05; 0xb1].

(** A DPIDR1 whose address-size field reads 64. *)
Definition width_64_device : nat -> Z :=
  device [64; 0x00001001; 0x00000000; 0x0d; 0x10; 0x05; 0xb1].

(** Four CIDR bytes whose preamble is off in the top byte. *)
Definition bad_preamble_device : nat -> Z :=
  device [0x0d; 0x10; 0x05; 0xb0].

End Sample.

(** ** Vocabulary of the statements *)

Section Vocabulary.

Context {hdr : Adiv6Header} {rest : Type}.
Variable responses : nat -> Z.
Variable shl64_wide : Z -> Z -> Z.

(** The three answers a discovery started in [w] gets: DPIDR1, then
    BASEPTR0, then BASEPTR1. *)
Definition discovered_dpidr1 (w : world rest) : Z :=
  u32 (responses (reads_so_far (events w))).

Definition discovered_baseptr0 (w : world rest) : Z :=
  u32 (responses (S (reads_so_far (events w)))).

Definition discovered_baseptr1 (w : world rest) : Z :=
  u32 (responses (S (S (reads_so_far (events w))))).

Definition discovered_width (w : world rest) : Z :=
  Z.land (discovered_dpidr1 w) ADIV6_DP_DPIDR1_ASIZE_MASK.

(** The candidate base address a discovery started in [w] assembles. *)
Definition candidate_base (w : world rest) : Z :=
  combine shl64_wide (discovered_baseptr0 w)
                     (discovered_baseptr1 w).

(** The handle of [w] with the three fields [adiv6_dp_init] assigns. *)
Definition initialised_handle (w : world rest) : adiv5_debug_port_s rest := {|
  ap_read := Adiv6_ap_reg_read;
  ap_write := Adiv6_ap_reg_write;
  address_width := discovered_width w;
  dp_rest := dp_rest (handle w)
|}.

(** What [adiv6_dp_init] logs up to and including the BASEPTR1 read. *)
Definition discovery_events (w : world rest) : list event :=
  [ StoreApRead Adiv6_ap_reg_read;
    StoreApWrite Adiv6_ap_reg_write;
    DpWrite (u16 ADIV5_DP_SELECT) (u32 ADIV5_DP_BANK1);
    DpRead (u16 ADIV6_DP_DPIDR1) (discovered_dpidr1 w);
    StoreAddressWidth (discovered_width w);
    DebugInfo (Dpidr1_addressing (discovered_dpidr1 w) (discovered_width w));
    DpWrite (u16 ADIV5_DP_SELECT) (u32 ADIV5_DP_BANK2);
    DpRead (u16 ADIV6_DP_BASEPTR0) (discovered_baseptr0 w);
    DpWrite (u16 ADIV5_DP_SELECT) (u32 ADIV5_DP_BANK3);
    DpRead (u16 ADIV6_DP_BASEPTR1) (discovered_baseptr1 w) ].

Definition after_discovery (w : world rest) : world rest := {|
  handle := initialised_handle w;
  events := events w ++ discovery_events w
|}.

(** The three SELECT1/SELECT writes that open every windowed access to
    the AP at [a], [low_bits] being what is or-ed to the low half. *)
Definition window_setup (a low_bits : Z) : list event :=
  [ DpWrite (u16 ADIV5_DP_SELECT) (u32 ADIV5_DP_BANK5);
    DpWrite (u16 ADIV6_DP_SELECT1) (high_half a);
    DpWrite (u16 ADIV5_DP_SELECT) (u32 (Z.lor (low_half a) low_bits)) ].

(** The bank bits of a register offset as the spec words them: with
    [bank] the offset masked by the AP bank mask, the bank's high nibble
    shifted down by 4 bits, or-ed with the bank's low nibble. *)
Definition bank_bits (addr : Z) : Z :=
  let bank := Z.land addr ADIV6_AP_BANK_MASK in
  Z.lor (Z.shiftr (Z.land bank 0xf000) 4) (Z.land bank 0xf0).

(** The byte-shift rule of the spec:
    [byte0 | byte1<<8 | byte2<<16 | byte3<<24]. *)
Definition cidr_of_bytes (byte0 byte1 byte2 byte3 : Z) : Z :=
  Z.lor (Z.lor (Z.lor byte0 (Z.shiftl byte1 8)) (Z.shiftl byte2 16))
        (Z.shiftl byte3 24).

(** The [i]-th answer to the CIDR reads of an identification started
    in [w], and its low byte. *)
Definition cidr_read (w : world rest) (i : nat) : Z :=
  u32 (responses (reads_so_far (events w) + i)).

Definition cidr_byte (w : world rest) (i : nat) : Z :=
  Z.land (cidr_read w i) 0xff.

Definition discovered_cidr (w : world rest) : Z :=
  cidr_of_bytes (cidr_byte w 0) (cidr_byte w 1) (cidr_byte w 2) (cidr_byte w 3).

(** What [adiv6_dp_read_id] logs for the AP at [a] and offset [addr]. *)
Definition read_id_events (w : world rest) (a addr : Z) : list event :=
  window_setup a (Z.land addr 0x0ff0) ++
  [ DpRead (u16 (Z.lor ADIV5_APnDP (Z.shiftl 0 2))) (cidr_read w 0);
    DpRead (u16 (Z.lor ADIV5_APnDP (Z.shiftl 1 2))) (cidr_read w 1);
    DpRead (u16 (Z.lor ADIV5_APnDP (Z.shiftl 2 2))) (cidr_read w 2);
    DpRead (u16 (Z.lor ADIV5_APnDP (Z.shiftl 3 2))) (cidr_read w 3) ].

(** The stores into the DP handle among the events of a log. *)
Definition is_store (e : event) : bool :=
  match e with
  | StoreApRead _ | StoreApWrite _ | StoreAddressWidth _ => true
  | _ => false
  end.

Definition handle_stores (l : list event) : list event := filter is_store l.

End Vocabulary.

(** ** Fixed-width arithmetic facts *)

Module IntFacts.

Lemma u16_range x : is_u16 (u16 x).
Proof. unfold is_u16, u16. apply Z.mod_pos_bound. lia. Qed.

Lemma u32_range x : is_u32 (u32 x).
Proof. unfold is_u32, u32. apply Z.mod_pos_bound. lia. Qed.

Lemma u64_range x : is_u64 (u64 x).
Proof. unfold is_u64, u64. apply Z.mod_pos_bound. lia. Qed.

Lemma u16_small x : is_u16 x -> u16 x = x.
Proof. unfold is_u16, u16. intros H. now apply Z.mod_small. Qed.

Lemma u32_small x : is_u32 x -> u32 x = x.
Proof. unfold is_u32, u32. intros H. now apply Z.mod_small. Qed.

Lemma u64_small x : is_u64 x -> u64 x = x.
Proof. unfold is_u64, u64. intros H. now apply Z.mod_small. Qed.

Lemma u32_idem x : u32 (u32 x) = u32 x.
Proof. apply u32_small, u32_range. Qed.

Lemma u32_is_u64 x : is_u32 x -> is_u64 x.
Proof. unfold is_u32, is_u64. lia. Qed.

(** A non-negative number is below [2^n] exactly when it has no bit at
    position [n] or above. *)
Lemma below_pow2_bits x n :
  0 <= x -> 0 <= n ->
  (x < 2 ^ n <-> forall k, n <= k -> Z.testbit x k = false).
Proof.
  intros Hx Hn. split.
  - intros Hlt k Hk.
    destruct (Z.eq_dec x 0) as [->|Hnz]; [apply Z.bits_0|].
    apply Z.bits_above_log2; [lia|].
    apply Z.lt_le_trans with n; [|exact Hk].
    apply Z.log2_lt_pow2; lia.
  - intros Hbits.
    destruct (Z.lt_ge_cases x (2 ^ n)) as [Hlt|Hge]; [exact Hlt|].
    exfalso.
    assert (Hpos : 0 < x) by (pose proof (Z.pow_pos_nonneg 2 n); lia).
    pose proof (Z.bit_log2 x Hpos) as Hbit.
    rewrite Hbits in Hbit; [discriminate|].
    apply Z.log2_le_pow2; lia.
Qed.

(** Or-ing and and-ing stay within the width of the operands. *)
Lemma lor_below x y n :
  0 <= n -> 0 <= x < 2 ^ n -> 0 <= y < 2 ^ n -> 0 <= Z.lor x y < 2 ^ n.
Proof.
  intros Hn Hx Hy. split; [apply Z.lor_nonneg; lia|].
  apply below_pow2_bits; [apply Z.lor_nonneg; lia|lia|].
  intros k Hk. rewrite Z.lor_spec.
  rewrite (proj1 (below_pow2_bits x n (proj1 Hx) Hn) (proj2 Hx) k Hk).
  rewrite (proj1 (below_pow2_bits y n (proj1 Hy) Hn) (proj2 Hy) k Hk).
  reflexivity.
Qed.

Lemma land_below_l x y : 0 <= x -> 0 <= Z.land x y <= x.
Proof.
  intros Hx. split; [apply Z.land_nonneg; lia|].
  assert (Hsum : Z.land x y + Z.ldiff x y = x).
  { rewrite Z.add_nocarry_lxor by Z.bitblast. Z.bitblast. }
  assert (0 <= Z.ldiff x y) by (apply Z.ldiff_nonneg; lia).
  lia.
Qed.

Lemma land_below_r x y : 0 <= y -> 0 <= Z.land x y <= y.
Proof. intros Hy. rewrite Z.land_comm. now apply land_below_l. Qed.

End IntFacts.
Import IntFacts.

(** ** Properties of the code *)

Section Properties.

Context {hdr : Adiv6Header} {rest : Type}.
Variable responses : nat -> Z.
Variable shl64_wide : Z -> Z -> Z.

Lemma reads_so_far_app (l l' : list event) :
  reads_so_far (l ++ l') = (reads_so_far l + reads_so_far l')%nat.
Proof.
  induction l as [|e l IH]; [reflexivity|].
  destruct e; cbn [app reads_so_far]; rewrite IH; reflexivity.
Qed.

(** A byte moved to one of the four byte lanes fits 32 bits. *)
Lemma byte_lane_u32 (v k : Z) :
  0 <= k <= 24 ->
  u32 (Z.shiftl (Z.land v 0xff) k) = Z.shiftl (Z.land v 0xff) k.
Proof.
  intros Hk. apply u32_small. unfold is_u32.
  pose proof (land_below_r v 0xff ltac:(lia)) as Hb.
  rewrite Z.shiftl_mul_pow2 by lia.
  assert (0 < 2 ^ k) by (apply Z.pow_pos_nonneg; lia).
  assert (2 ^ k <= 2 ^ 24) by (apply Z.pow_le_mono_r; lia).
  change (2 ^ 32) with (256 * 2 ^ 24). nia.
Qed.

Lemma run_emit (e : event) (w : world rest) :
  emit e w = (tt, {| handle := handle w; events := events w ++ [e] |}).
Proof. reflexivity. Qed.

Lemma run_dp_write (addr value : Z) (w : world rest) :
  adiv5_dp_write addr value w =
  (tt, {| handle := handle w;
          events := events w ++ [DpWrite (u16 addr) (u32 value)] |}).
Proof. reflexivity. Qed.

Lemma run_dp_read (addr : Z) (w : world rest) :
  adiv5_dp_read responses addr w =
  (u32 (responses (reads_so_far (events w))),
   {| handle := handle w;
      events := events w ++
                [DpRead (u16 addr) (u32 (responses (reads_so_far (events w))))] |}).
Proof. reflexivity. Qed.

Lemma high_half_u32 (a : Z) : u32 (high_half a) = high_half a.
Proof. apply u32_idem. Qed.

Lemma low_half_u32 (a : Z) : u32 (low_half a) = low_half a.
Proof. apply u32_idem. Qed.

(** Unfolds the monadic code on a state and tidies the log. *)
Ltac run_code :=
  cbv [adiv6_dp_init adiv6_component_probe adiv6_dp_read_id read_id_loop
       adiv6_dp_read_base_address adiv6_ap_reg_read adiv6_ap_reg_write
       adiv5_dp_read adiv5_dp_write store_ap_read store_ap_write
       store_address_width bind ret emit get_handle put_handle];
  cbn [handle events ap_read ap_write address_width dp_rest ap_address fst snd];
  repeat rewrite <- app_assoc; cbn [app];
  repeat rewrite reads_so_far_app; cbn [reads_so_far];
  repeat rewrite high_half_u32.

Lemma run_dp_read_id (ap : adiv6_access_port_s) (addr : Z) (w : world rest) :
  adiv6_dp_read_id responses ap addr w =
  (discovered_cidr responses w,
   {| handle := handle w;
      events := events w ++ read_id_events responses w (ap_address ap) addr |}).
Proof.
  run_code.
  change (0 * 8) with 0; change ((0 + 1) * 8) with 8;
    change ((0 + 1 + 1) * 8) with 16; change ((0 + 1 + 1 + 1) * 8) with 24.
  repeat rewrite byte_lane_u32 by lia.
  rewrite Z.lor_0_l, Z.shiftl_0_r.
  reflexivity.
Qed.

Lemma run_component_probe (base_address entry_number : Z) (w : world rest) :
  adiv6_component_probe responses base_address entry_number w =
  if Z.land (discovered_cidr responses w) (Z.lnot CID_CLASS_MASK) =? CID_PREAMBLE
  then
    (false,
     {| handle := handle w;
        events := events w ++
                  read_id_events responses w base_address CIDR0_OFFSET |})
  else
    (false,
     {| handle := handle w;
        events := events w ++
                  read_id_events responses w base_address CIDR0_OFFSET ++
                  [DebugWarn (Preamble_mismatch entry_number
                                (high_half base_address) (low_half base_address)
                                (discovered_cidr responses w) CID_PREAMBLE)] |}).
Proof.
  unfold adiv6_component_probe, bind.
  rewrite run_dp_read_id. cbn [ap_address].
  destruct (Z.land (discovered_cidr responses w) (Z.lnot CID_CLASS_MASK)
            =? CID_PREAMBLE); cbn [negb].
  - reflexivity.
  - unfold emit, ret. cbn [handle events]. rewrite <- app_assoc. reflexivity.
Qed.

Lemma run_dp_read_base_address (w : world rest) :
  adiv6_dp_read_base_address responses shl64_wide w =
  (combine shl64_wide
     (u32 (responses (reads_so_far (events w))))
     (u32 (responses (S (reads_so_far (events w))))),
   {| handle := handle w;
      events := events w ++
        [ DpWrite (u16 ADIV5_DP_SELECT) (u32 ADIV5_DP_BANK2);
          DpRead (u16 ADIV6_DP_BASEPTR0)
            (u32 (responses (reads_so_far (events w))));
          DpWrite (u16 ADIV5_DP_SELECT) (u32 ADIV5_DP_BANK3);
          DpRead (u16 ADIV6_DP_BASEPTR1)
            (u32 (responses (S (reads_so_far (events w))))) ] |}).
Proof.
  run_code. rewrite Nat.add_0_r, Nat.add_1_r. reflexivity.
Qed.

(** [adiv6_dp_init], one case per way out of the function. *)
Lemma run_dp_init (w : world rest) :
  adiv6_dp_init responses shl64_wide w =
  let base := candidate_base responses shl64_wide w in
  let w1 := after_discovery responses w in
  if Z.land base ADIV6_DP_BASEPTR0_VALID =? 0 then
    (false, {| handle := handle w1;
               events := events w1 ++ [DebugInfo No_valid_base_address] |})
  else if Z.land base (sub64 (shl64 shl64_wide 1 (discovered_width responses w)) 1)
          =? base then
    adiv6_component_probe responses
      (u64 (Z.land base ADIV6_DP_BASE_ADDRESS_MASK)) 0 w1
  else
    (false, {| handle := handle w1;
               events := events w1 ++
                 [DebugInfo (Bad_base_address (high_half base) (low_half base))] |}).
Proof.
  cbv zeta.
  unfold adiv6_dp_init, bind at 1 2 3 4 5 6 7 8.
  cbv [store_ap_read store_ap_write store_address_width adiv5_dp_read
       adiv5_dp_write bind ret emit get_handle put_handle].
  cbn [handle events ap_read ap_write address_width dp_rest fst snd].
  rewrite run_dp_read_base_address.
  cbn [handle events ap_read ap_write address_width dp_rest fst snd].
  repeat rewrite <- app_assoc. cbn [app].
  repeat rewrite reads_so_far_app. cbn [reads_so_far].
  rewrite Nat.add_0_r, Nat.add_1_r.
  unfold candidate_base, after_discovery, initialised_handle, discovery_events,
    discovered_width, discovered_baseptr0, discovered_baseptr1, discovered_dpidr1.
  cbn [handle events address_width].
  destruct (Z.land _ ADIV6_DP_BASEPTR0_VALID =? 0); [reflexivity|].
  destruct (Z.land _ (sub64 _ 1) =? _); reflexivity.
Qed.

(** *** Register window codec *)

Lemma combine_range (low high : Z) : is_u64 (combine shl64_wide low high).
Proof.
  unfold combine, shl64. cbn [Z.leb Z.ltb Z.compare Pos.compare Pos.compare_cont andb].
  apply lor_below; [lia|apply u64_range|apply u64_range].
Qed.

(** C2: for every 64-bit address [a], the low half [(uint32_t)a] and
    the high half [(uint32_t)(a >> 32)] recombined as
    [low | ((uint64_t)high << 32)] give [a] again. *)
Theorem split_combine_roundtrip (a : Z) :
  is_u64 a ->
  combine shl64_wide (low_half a) (high_half a) = a.
Proof.
  unfold is_u64. intros Ha.
  unfold combine, shl64, low_half, high_half, u64, u32.
  cbn [Z.leb Z.ltb Z.compare Pos.compare Pos.compare_cont andb].
  rewrite <- (Z.mod_small a (2 ^ 64)) at 3 by lia.
  rewrite <- !Z.land_ones by lia.
  Z.bitblast.
Qed.

(** *** Access port proxy *)

(** Truncating the bank to 16 bits changes neither nibble taken from it. *)
Lemma bank_nibbles_u16 (x : Z) :
  Z.lor (Z.shiftr (Z.land (u16 x) 0xf000) 4) (Z.land (u16 x) 0xf0) =
  Z.lor (Z.shiftr (Z.land x 0xf000) 4) (Z.land x 0xf0).
Proof.
  unfold u16. rewrite <- Z.land_ones by lia.
  change 0xf000 with (Z.shiftl (Z.ones 4) 12).
  change 0xf0 with (Z.shiftl (Z.ones 4) 4).
  Z.bitblast.
Qed.

(** Bit [k] of the bank bits: bits 4..7 are those of the bank, bits
    8..11 are bits 12..15 of the bank, every other bit is clear. *)
Lemma bank_bits_testbit (addr k : Z) :
  0 <= k ->
  Z.testbit (bank_bits addr) k =
  ((4 <=? k) && (k <? 8) && Z.testbit (Z.land addr ADIV6_AP_BANK_MASK) k)
  || ((8 <=? k) && (k <? 12) && Z.testbit (Z.land addr ADIV6_AP_BANK_MASK) (k + 4)).
Proof.
  intros Hk. unfold bank_bits. cbv zeta.
  change 0xf000 with (Z.shiftl (Z.ones 4) 12).
  change 0xf0 with (Z.shiftl (Z.ones 4) 4).
  rewrite Z.lor_spec, Z.shiftr_spec, !Z.land_spec by lia.
  rewrite !Z.shiftl_spec by lia.
  set (lo := Z.testbit (Z.ones 4) (k - 4)).
  set (hi := Z.testbit (Z.ones 4) (k + 4 - 12)).
  assert (Hlo : lo = (4 <=? k) && (k <? 8)).
  { subst lo. destruct (Z.leb_spec 4 k), (Z.ltb_spec k 8); cbn [andb].
    - apply Z.ones_spec_low; lia.
    - apply Z.ones_spec_high; lia.
    - apply Z.testbit_neg_r; lia.
    - apply Z.testbit_neg_r; lia. }
  assert (Hhi : hi = (8 <=? k) && (k <? 12)).
  { subst hi. destruct (Z.leb_spec 8 k), (Z.ltb_spec k 12); cbn [andb].
    - apply Z.ones_spec_low; lia.
    - apply Z.ones_spec_high; lia.
    - apply Z.testbit_neg_r; lia.
    - apply Z.testbit_neg_r; lia. }
  rewrite Hlo, Hhi.
  destruct (Z.leb_spec 4 k), (Z.ltb_spec k 8), (Z.leb_spec 8 k),
    (Z.ltb_spec k 12); try lia; cbn [andb orb];
    rewrite ?andb_true_r, ?andb_false_r, ?orb_false_r; reflexivity.
Qed.

Lemma bank_bits_range (addr : Z) : 0 <= bank_bits addr < 2 ^ 12.
Proof.
  assert (Hnn : 0 <= bank_bits addr).
  { unfold bank_bits. cbv zeta. apply Z.lor_nonneg. split.
    - apply Z.shiftr_nonneg. apply (land_below_r _ 0xf000). lia.
    - apply (land_below_r _ 0xf0). lia. }
  split; [exact Hnn|].
  apply below_pow2_bits; [exact Hnn|lia|].
  intros k Hk. rewrite bank_bits_testbit by lia.
  destruct (Z.ltb_spec k 8), (Z.ltb_spec k 12); try lia;
    now rewrite ?andb_false_r.
Qed.

(** The SELECT value of an AP access, as the code computes it, is the
    low half of the AP address or-ed with the bank bits, and fits
    32 bits. *)
Lemma select_value (a addr : Z) :
  u32 (Z.lor (Z.lor (low_half a)
                (Z.shiftr (Z.land (u16 (Z.land addr ADIV6_AP_BANK_MASK)) 0xf000) 4))
             (Z.land (u16 (Z.land addr ADIV6_AP_BANK_MASK)) 0xf0)) =
  Z.lor (low_half a) (bank_bits addr).
Proof.
  rewrite <- Z.lor_assoc, bank_nibbles_u16.
  fold (bank_bits addr).
  apply u32_small. unfold is_u32.
  apply lor_below; [lia|apply u32_range|].
  pose proof (bank_bits_range addr). lia.
Qed.

Lemma run_ap_reg_read (ap : adiv6_access_port_s) (addr : Z) (w : world rest) :
  adiv6_ap_reg_read responses ap addr w =
  (u32 (responses (reads_so_far (events w))),
   {| handle := handle w;
      events := events w ++
        [ DpWrite (u16 ADIV5_DP_SELECT) (u32 ADIV5_DP_BANK5);
          DpWrite (u16 ADIV6_DP_SELECT1) (high_half (ap_address ap));
          DpWrite (u16 ADIV5_DP_SELECT)
            (Z.lor (low_half (ap_address ap)) (bank_bits addr));
          DpRead (u16 addr) (u32 (responses (reads_so_far (events w)))) ] |}).
Proof. run_code. rewrite select_value, Nat.add_0_r. reflexivity. Qed.

Lemma run_ap_reg_write (ap : adiv6_access_port_s) (addr value : Z) (w : world rest) :
  adiv6_ap_reg_write ap addr value w =
  (tt,
   {| handle := handle w;
      events := events w ++
        [ DpWrite (u16 ADIV5_DP_SELECT) (u32 ADIV5_DP_BANK5);
          DpWrite (u16 ADIV6_DP_SELECT1) (high_half (ap_address ap));
          DpWrite (u16 ADIV5_DP_SELECT)
            (Z.lor (low_half (ap_address ap)) (bank_bits addr));
          DpWrite (u16 addr) (u32 value) ] |}).
Proof. run_code. rewrite select_value. reflexivity. Qed.

(** C1: on every call of the two installed handlers, the write of the
    high address half to SELECT1 comes strictly before the write of the
    low half and bank bits to SELECT, the two are next to each other in
    the log (nothing is accessed in between), and the access to the
    requested offset comes only after both. *)
Theorem ap_access_select1_before_select
    (ap : adiv6_access_port_s) (addr value : Z) (w : world rest) :
  let select1 := DpWrite (u16 ADIV6_DP_SELECT1) (high_half (ap_address ap)) in
  let select := DpWrite (u16 ADIV5_DP_SELECT)
                  (Z.lor (low_half (ap_address ap)) (bank_bits addr)) in
  let answer := u32 (responses (reads_so_far (events w))) in
  adiv6_ap_reg_read responses ap addr w =
    (answer,
     {| handle := handle w;
        events := events w ++
          [ DpWrite (u16 ADIV5_DP_SELECT) (u32 ADIV5_DP_BANK5);
            select1; select;
            DpRead (u16 addr) answer ] |})
  /\ adiv6_ap_reg_write ap addr value w =
    (tt,
     {| handle := handle w;
        events := events w ++
          [ DpWrite (u16 ADIV5_DP_SELECT) (u32 ADIV5_DP_BANK5);
            select1; select;
            DpWrite (u16 addr) (u32 value) ] |}).
Proof.
  cbv zeta. split; [apply run_ap_reg_read|apply run_ap_reg_write].
Qed.

(** C5: for every AP register access at offset [addr], the value
    written to SELECT is the low 32 bits of the AP address or-ed with
    the bank bits in the fixed pattern: with [bank] the offset masked
    by the AP bank mask, [((bank & 0xf000) >> 4) | (bank & 0xf0)]. *)
Theorem ap_access_select_bank_pattern
    (ap : adiv6_access_port_s) (addr value : Z) (w : world rest) :
  let bank := Z.land addr ADIV6_AP_BANK_MASK in
  let select := DpWrite (u16 ADIV5_DP_SELECT)
                  (Z.lor (ap_address ap mod 2 ^ 32)
                     (Z.lor (Z.shiftr (Z.land bank 0xf000) 4) (Z.land bank 0xf0))) in
  nth_error (events (snd (adiv6_ap_reg_read responses ap addr w)))
    (length (events w) + 2) = Some select
  /\ nth_error (events (snd (adiv6_ap_reg_write ap addr value w)))
       (length (events w) + 2) = Some select.
Proof.
  cbv zeta.
  rewrite run_ap_reg_read, run_ap_reg_write. cbn [snd events].
  split; (rewrite nth_error_app2 by lia);
    (replace (length (events w) + 2 - length (events w))%nat with 2%nat by lia);
    reflexivity.
Qed.

(** *** Component identification *)

(** The low byte of a 32-bit answer is the low byte of the answer. *)
Lemma low_byte_u32 (r : Z) : Z.land (u32 r) 0xff = r mod 2 ^ 8.
Proof.
  unfold u32. change 0xff with (Z.ones 8).
  rewrite <- !Z.land_ones by lia. Z.bitblast.
Qed.

(** C7: the CIDR value is put together from four separate register
    reads, read [i] giving only its low byte, placed at bit [i*8]:
    [byte0 | byte1<<8 | byte2<<16 | byte3<<24]; the bits of a read
    above its low byte do not reach the result. *)
Theorem dp_read_id_byte_reconstruction
    (ap : adiv6_access_port_s) (addr : Z) (w : world rest) :
  let n := reads_so_far (events w) in
  fst (adiv6_dp_read_id responses ap addr w) =
    cidr_of_bytes (responses n mod 2 ^ 8)
                  (responses (n + 1)%nat mod 2 ^ 8)
                  (responses (n + 2)%nat mod 2 ^ 8)
                  (responses (n + 3)%nat mod 2 ^ 8)
  /\ reads_so_far (events (snd (adiv6_dp_read_id responses ap addr w))) =
     (n + 4)%nat.
Proof.
  cbv zeta. rewrite run_dp_read_id. cbn [fst snd events]. split.
  - unfold discovered_cidr, cidr_byte, cidr_read.
    rewrite !low_byte_u32, Nat.add_0_r. reflexivity.
  - rewrite reads_so_far_app. reflexivity.
Qed.

(** C8: whatever the DP handle, the base address and the entry number,
    [adiv6_component_probe] returns false, also when the CIDR preamble
    check passes: the class nibble is extracted and then dropped. *)
Theorem component_probe_always_false
    (base_address entry_number : Z) (w : world rest) :
  fst (adiv6_component_probe responses base_address entry_number w) = false.
Proof.
  rewrite run_component_probe.
  destruct (Z.land _ (Z.lnot CID_CLASS_MASK) =? CID_PREAMBLE); reflexivity.
Qed.

(** C6: when the bits of the CIDR value outside the class-nibble mask
    differ from the preamble constant, [adiv6_component_probe] returns
    false (and warns of the mismatch), whatever the class nibble is. *)
Theorem component_probe_preamble_mismatch
    (base_address entry_number : Z) (w : world rest) :
  Z.land (discovered_cidr responses w) (Z.lnot CID_CLASS_MASK) <> CID_PREAMBLE ->
  adiv6_component_probe responses base_address entry_number w =
  (false,
   {| handle := handle w;
      events := events w ++
                read_id_events responses w base_address CIDR0_OFFSET ++
                [DebugWarn (Preamble_mismatch entry_number
                              (high_half base_address) (low_half base_address)
                              (discovered_cidr responses w) CID_PREAMBLE)] |}).
Proof.
  intros Hne. rewrite run_component_probe.
  destruct (Z.eqb_spec (Z.land (discovered_cidr responses w) (Z.lnot CID_CLASS_MASK))
              CID_PREAMBLE) as [Heq|_]; [contradiction|reflexivity].
Qed.

(** *** Discovery *)

Lemma discovered_width_nonneg (w : world rest) :
  0 <= discovered_width responses w.
Proof.
  unfold discovered_width, discovered_dpidr1.
  apply land_below_l. apply u32_range.
Qed.

(** [(UINT64_C(1) << n) - 1U] is the mask of the low [n] bits. *)
Lemma width_mask (n : Z) :
  0 <= n < 64 -> sub64 (shl64 shl64_wide 1 n) 1 = Z.ones n.
Proof.
  intros Hn. unfold sub64, shl64.
  destruct (Z.leb_spec 0 n), (Z.ltb_spec n 64); try lia. cbn [andb].
  rewrite Z.shiftl_1_l, Z.ones_equiv.
  assert (0 < 2 ^ n) by (apply Z.pow_pos_nonneg; lia).
  assert (2 ^ n < 2 ^ 64) by (apply Z.pow_lt_mono_r; lia).
  rewrite (u64_small (2 ^ n)) by (unfold is_u64; lia).
  rewrite u64_small by (unfold is_u64; lia). lia.
Qed.


(** The validity flag of the candidate is that of its low half. *)
Lemma candidate_valid_flag (w : world rest) :
  Z.land (candidate_base responses shl64_wide w) ADIV6_DP_BASEPTR0_VALID =
  Z.land (discovered_baseptr0 responses w) ADIV6_DP_BASEPTR0_VALID.
Proof.
  unfold candidate_base, combine, shl64, ADIV6_DP_BASEPTR0_VALID.
  cbn [Z.leb Z.ltb Z.compare Pos.compare Pos.compare_cont andb].
  rewrite (u64_small (discovered_baseptr0 responses w))
    by (apply u32_is_u64, u32_range).
  unfold u64. change 1 with (Z.ones 1).
  rewrite <- !Z.land_ones by lia. Z.bitblast.
Qed.

(** Every way out of [adiv6_dp_init] returns false, leaves the handle
    with the three fields assigned and has logged the discovery events
    followed by events that are not stores. *)
Lemma dp_init_outcome (w : world rest) :
  exists tail,
    adiv6_dp_init responses shl64_wide w =
    (false, {| handle := initialised_handle responses w;
               events := events w ++ discovery_events responses w ++ tail |})
    /\ handle_stores tail = [].
Proof.
  rewrite run_dp_init. cbv zeta. unfold after_discovery.
  destruct (Z.land _ ADIV6_DP_BASEPTR0_VALID =? 0);
    [|destruct (Z.land _ (sub64 _ 1) =? _);
      [rewrite run_component_probe;
       destruct (Z.land _ (Z.lnot CID_CLASS_MASK) =? CID_PREAMBLE)|]];
    cbn [handle events]; rewrite <- app_assoc;
    eexists; (split; [reflexivity|reflexivity]).
Qed.

(** C4: when the validity flag of the discovered low base-address half
    is clear, [adiv6_dp_init] returns false right after the BASEPTR1
    read: the three discovery reads are the only reads it makes, no
    component probe and no CIDR read follows. *)
Theorem dp_init_validity_gate (w : world rest) :
  Z.land (discovered_baseptr0 responses w) ADIV6_DP_BASEPTR0_VALID = 0 ->
  adiv6_dp_init responses shl64_wide w =
    (false,
     {| handle := initialised_handle responses w;
        events := events w ++ discovery_events responses w ++
                  [DebugInfo No_valid_base_address] |})
  /\ reads_so_far (events (snd (adiv6_dp_init responses shl64_wide w))) =
     (reads_so_far (events w) + 3)%nat.
Proof.
  intros Hclear.
  assert (Hrun : adiv6_dp_init responses shl64_wide w =
    (false,
     {| handle := initialised_handle responses w;
        events := events w ++ discovery_events responses w ++
                  [DebugInfo No_valid_base_address] |})).
  { rewrite run_dp_init. cbv zeta.
    rewrite candidate_valid_flag, Hclear. cbn [Z.eqb].
    unfold after_discovery. cbn [handle events].
    rewrite <- app_assoc. reflexivity. }
  split; [exact Hrun|].
  rewrite Hrun. cbn [snd events].
  rewrite reads_so_far_app. reflexivity.
Qed.


(** C9: [adiv6_dp_init] stores the two AP handlers first, ahead of
    every register access and so ahead of the validation of the base
    address; whatever it returns afterwards, and it can only return
    false in the checks that follow, the handle is left with the ADIv6
    handlers in [ap_read] and [ap_write]. *)
Theorem dp_init_installs_handlers_first (w : world rest) :
  let result := adiv6_dp_init responses shl64_wide w in
  (exists tail,
     events (snd result) =
     events w ++ StoreApRead Adiv6_ap_reg_read
              :: StoreApWrite Adiv6_ap_reg_write :: tail)
  /\ ap_read (handle (snd result)) = Adiv6_ap_reg_read
  /\ ap_write (handle (snd result)) = Adiv6_ap_reg_write.
Proof.
  cbv zeta. destruct (dp_init_outcome w) as [tail [Hrun _]].
  rewrite Hrun. cbn [snd handle events]. split.
  - eexists. unfold discovery_events. cbn [app]. reflexivity.
  - split; reflexivity.
Qed.

(** C10: every execution of [adiv6_dp_init] stores into exactly three
    fields of the handle, [ap_read], [ap_write] and [address_width],
    once each, and leaves the rest of the handle as it was;
    [address_width] receives the DPIDR1 answer masked by the ASIZE mask
    on every execution, those returning false included. *)
Theorem dp_init_frame (w : world rest) :
  let result := adiv6_dp_init responses shl64_wide w in
  let width := Z.land (u32 (responses (reads_so_far (events w))))
                      ADIV6_DP_DPIDR1_ASIZE_MASK in
  handle (snd result) =
    {| ap_read := Adiv6_ap_reg_read;
       ap_write := Adiv6_ap_reg_write;
       address_width := width;
       dp_rest := dp_rest (handle w) |}
  /\ exists new,
       events (snd result) = events w ++ new
       /\ handle_stores new =
          [ StoreApRead Adiv6_ap_reg_read;
            StoreApWrite Adiv6_ap_reg_write;
            StoreAddressWidth width ].
Proof.
  cbv zeta. destruct (dp_init_outcome w) as [tail [Hrun Htail]].
  rewrite Hrun. cbn [snd handle events]. split.
  - reflexivity.
  - eexists. split; [reflexivity|].
    unfold handle_stores in *. rewrite filter_app, Htail.
    reflexivity.
Qed.

(** X9: [adiv6_dp_init] returns false on every execution, whatever the
    device answers: each check that fails returns false, and the
    component probe it ends with otherwise never returns true. *)
Lemma dp_init_always_false (w : world rest) :
  fst (adiv6_dp_init responses shl64_wide w) = false.
Proof.
  destruct (dp_init_outcome w) as [tail [Hrun _]]. now rewrite Hrun.
Qed.

End Properties.

(** ** The properties on concrete inputs *)

Lemma split_combine_roundtrip_witness :
  is_u64 0x123456789abcdef0 /\
  combine Sample.shl_zero (low_half 0x123456789abcdef0)
                          (high_half 0x123456789abcdef0) = 0x123456789abcdef0.
Proof.
  split.
  - unfold is_u64. lia.
  - apply (split_combine_roundtrip Sample.shl_zero 0x123456789abcdef0).
    unfold is_u64. lia.
Defined.

Lemma dp_init_validity_gate_witness :
  Z.land (discovered_baseptr0 Sample.invalid_device Sample.start)
         ADIV6_DP_BASEPTR0_VALID = 0 /\
  adiv6_dp_init (hdr := Sample.header) Sample.invalid_device Sample.shl_zero
                Sample.start =
    (false,
     {| handle := initialised_handle (hdr := Sample.header)
                    Sample.invalid_device Sample.start;
        events := events Sample.start ++
                  discovery_events (hdr := Sample.header)
                    Sample.invalid_device Sample.start ++
                  [DebugInfo No_valid_base_address] |}) /\
  reads_so_far
    (events (snd (adiv6_dp_init (hdr := Sample.header) Sample.invalid_device
                    Sample.shl_zero Sample.start))) = 3%nat.
Proof.
  split; [reflexivity|].
  apply (dp_init_validity_gate (hdr := Sample.header) Sample.invalid_device
           Sample.shl_zero Sample.start).
  reflexivity.
Defined.



Lemma component_probe_preamble_mismatch_witness :
  Z.land (discovered_cidr Sample.bad_preamble_device Sample.start)
         (Z.lnot (CID_CLASS_MASK (Adiv6Header := Sample.header)))
    <> CID_PREAMBLE (Adiv6Header := Sample.header) /\
  adiv6_component_probe (hdr := Sample.header) Sample.bad_preamble_device
                        0x1000 0 Sample.start =
    (false,
     {| handle := handle Sample.start;
        events := events Sample.start ++
                  read_id_events (hdr := Sample.header)
                    Sample.bad_preamble_device Sample.start 0x1000
                    (CIDR0_OFFSET (Adiv6Header := Sample.header)) ++
                  [DebugWarn (Preamble_mismatch 0 0x00000000 0x00001000
                                0xb005100d 0xb105000d)] |}).
Proof.
  split; [vm_compute; discriminate|].
  apply (component_probe_preamble_mismatch (hdr := Sample.header)
           Sample.bad_preamble_device 0x1000 0 Sample.start).
  vm_compute. discriminate.
Defined.

(** ** Scenarios *)

(** 40-bit addressing, BASEPTR0 = 0x00001001, BASEPTR1 = 0: the candidate
    0x1001 fits; the component at 0x1000 is probed (SELECT = 0x1ff0) and
    its four CIDR bytes are read. *)
Example scenario_valid_base :
  adiv6_dp_init (hdr := Sample.header) Sample.good_device Sample.shl_zero
                Sample.start =
  (false,
   {| handle := {| ap_read := Adiv6_ap_reg_read;
                   ap_write := Adiv6_ap_reg_write;
                   address_width := 40;
                   dp_rest := 7%nat |};
      events :=
        [ StoreApRead Adiv6_ap_reg_read; StoreApWrite Adiv6_ap_reg_write;
          DpWrite 0x8 1; DpRead 0x0 40; StoreAddressWidth 40;
          DebugInfo (Dpidr1_addressing 40 40);
          DpWrite 0x8 2; DpRead 0x0 0x1001; DpWrite 0x8 3; DpRead 0x0 0;
          DpWrite 0x8 5; DpWrite 0x4 0; DpWrite 0x8 0x1ff0;
          DpRead 0x100 0x0d; DpRead 0x104 0x10; DpRead 0x108 0x05;
          DpRead 0x10c 0xb1 ] |}).
Proof. vm_compute. reflexivity. Qed.

(** BASEPTR0 = 0x00001000: the validity flag is clear. *)
Example scenario_invalid_base :
  adiv6_dp_init (hdr := Sample.header) Sample.invalid_device Sample.shl_zero
                Sample.start =
  (false,
   {| handle := {| ap_read := Adiv6_ap_reg_read;
                   ap_write := Adiv6_ap_reg_write;
                   address_width := 40;
                   dp_rest := 7%nat |};
      events :=
        [ StoreApRead Adiv6_ap_reg_read; StoreApWrite Adiv6_ap_reg_write;
          DpWrite 0x8 1; DpRead 0x0 40; StoreAddressWidth 40;
          DebugInfo (Dpidr1_addressing 40 40);
          DpWrite 0x8 2; DpRead 0x0 0x1000; DpWrite 0x8 3; DpRead 0x0 0;
          DebugInfo No_valid_base_address ] |}).
Proof. vm_compute. reflexivity. Qed.

(** CIDR bytes 0xB1, 0x0D, 0x05, 0x00 in the order read. *)
Example scenario_cidr_bytes :
  cidr_of_bytes 0xb1 0x0d 0x05 0x00 = 0x00050db1.
Proof. reflexivity. Qed.

(** An AP read at offset 0x1d04 of the AP at 0x1234567800002000, with the
    bank mask 0xfff0: SELECT1 gets 0x12345678 and SELECT gets
    0x2000 | 0x100; the nibble 0x1 of bits 12..15 of the offset lands in
    bits 8..11 and the nibble 0x0 of bits 4..7 stays where it is. *)
Example scenario_ap_read :
  events (snd (adiv6_ap_reg_read (hdr := Sample.header) (Sample.device [0xcafe])
                 {| ap_address := 0x1234567800002000 |} 0x1d04 Sample.start)) =
  [ DpWrite 0x8 5; DpWrite 0x4 0x12345678; DpWrite 0x8 0x2100;
    DpRead 0x1d04 0xcafe ].
Proof. vm_compute. reflexivity. Qed.

(** With an address-size field of 64 the mask is built by a shift that C
    leaves undefined, and the outcome follows the platform: where the
    shift gives 0 the candidate 0x1001 is accepted and the component is
    probed (seven reads in all); where the count is taken modulo 64 the
    same candidate is refused after the three discovery reads. *)
Example width_64_follows_the_platform :
  reads_so_far
    (events (snd (adiv6_dp_init (hdr := Sample.header) Sample.width_64_device
                    Sample.shl_zero Sample.start))) = 7%nat
  /\ reads_so_far
       (events (snd (adiv6_dp_init (hdr := Sample.header) Sample.width_64_device
                       Sample.shl_mod64 Sample.start))) = 3%nat.
Proof. split; vm_compute; reflexivity. Qed.

(** ** Further properties of the code *)

Section Further.

Context {hdr : Adiv6Header} {rest : Type}.
Variable responses : nat -> Z.
Variable shl64_wide : Z -> Z -> Z.

(** *** Base address *)



(** *** Access port proxy *)

(** X2: [adiv6_ap_reg_write] never reads a register and
    [adiv6_ap_reg_read] reads exactly one, whose answer it returns;
    neither changes the DP handle. *)
Theorem ap_access_footprint
    (ap : adiv6_access_port_s) (addr value : Z) (w : world rest) :
  let written := snd (adiv6_ap_reg_write ap addr value w) in
  let read := adiv6_ap_reg_read responses ap addr w in
  reads_so_far (events written) = reads_so_far (events w)
  /\ handle written = handle w
  /\ reads_so_far (events (snd read)) = S (reads_so_far (events w))
  /\ fst read = u32 (responses (reads_so_far (events w)))
  /\ handle (snd read) = handle w.
Proof.
  cbv zeta. rewrite run_ap_reg_write, run_ap_reg_read.
  cbn [fst snd handle events]. rewrite !reads_so_far_app.
  cbn [reads_so_far]. repeat split; lia.
Qed.

(** X3: two identical AP reads in a row: the second call issues the
    same three SELECT/SELECT1 writes as the first, nothing being kept
    from one call to the next, and the two calls return two successive
    answers of the device. *)
Theorem ap_read_twice_same_window
    (ap : adiv6_access_port_s) (addr : Z) (w : world rest) :
  let window :=
    [ DpWrite (u16 ADIV5_DP_SELECT) (u32 ADIV5_DP_BANK5);
      DpWrite (u16 ADIV6_DP_SELECT1) (high_half (ap_address ap));
      DpWrite (u16 ADIV5_DP_SELECT)
        (Z.lor (low_half (ap_address ap)) (bank_bits addr)) ] in
  let first := u32 (responses (reads_so_far (events w))) in
  let second := u32 (responses (S (reads_so_far (events w)))) in
  (a <- adiv6_ap_reg_read responses ap addr ;;
   b <- adiv6_ap_reg_read responses ap addr ;;
   ret (a, b)) w =
  ((first, second),
   {| handle := handle w;
      events := events w ++ window ++ [DpRead (u16 addr) first]
                         ++ window ++ [DpRead (u16 addr) second] |}).
Proof.
  cbv zeta. unfold bind, ret.
  rewrite run_ap_reg_read. rewrite run_ap_reg_read.
  cbn [handle events]. rewrite reads_so_far_app. cbn [reads_so_far].
  rewrite Nat.add_1_r, <- app_assoc. reflexivity.
Qed.

Lemma testbit_0xff0 (k : Z) :
  Z.testbit 0xff0 k = (4 <=? k) && (k <? 12).
Proof.
  change 0xff0 with (Z.shiftl (Z.ones 8) 4).
  destruct (Z.leb_spec 4 k), (Z.ltb_spec k 12); cbn [andb].
  - rewrite Z.shiftl_spec by lia. apply Z.ones_spec_low. lia.
  - rewrite Z.shiftl_spec by lia. apply Z.ones_spec_high. lia.
  - destruct (Z.neg_nonneg_cases k) as [Hneg|Hpos];
      [apply Z.testbit_neg_r; lia|].
    rewrite Z.shiftl_spec by lia. apply Z.testbit_neg_r. lia.
  - lia.
Qed.

(** The bank bits lie in bits 4..11. *)
Lemma bank_bits_in_window (addr : Z) :
  Z.land (bank_bits addr) 0xff0 = bank_bits addr.
Proof.
  apply Z.bits_inj'. intros k Hk.
  rewrite Z.land_spec, testbit_0xff0, bank_bits_testbit by lia.
  destruct (Z.leb_spec 4 k), (Z.ltb_spec k 8), (Z.leb_spec 8 k),
    (Z.ltb_spec k 12); try lia; cbn [andb orb];
    rewrite ?andb_true_r, ?andb_false_r, ?orb_false_r; reflexivity.
Qed.

Lemma land_lnot_of_disjoint (x m : Z) :
  Z.land x m = 0 -> Z.land x (Z.lnot m) = x.
Proof.
  intros Hd. apply Z.bits_inj'. intros k Hk.
  rewrite Z.land_spec, Z.lnot_spec by lia.
  assert (Hbit : Z.testbit (Z.land x m) k = false)
    by (rewrite Hd; apply Z.bits_0).
  rewrite Z.land_spec in Hbit.
  destruct (Z.testbit x k), (Z.testbit m k); cbn in *; congruence.
Qed.

Lemma land_lnot_of_inside (x m : Z) :
  Z.land x m = x -> Z.land x (Z.lnot m) = 0.
Proof.
  intros Hi. apply Z.bits_inj'. intros k Hk.
  rewrite Z.land_spec, Z.lnot_spec, Z.bits_0 by lia.
  assert (Hbit : Z.testbit (Z.land x m) k = Z.testbit x k) by now rewrite Hi.
  rewrite Z.land_spec in Hbit.
  destruct (Z.testbit x k), (Z.testbit m k); cbn in *; congruence.
Qed.

Lemma low_half_land_0xff0 (a : Z) :
  Z.land (low_half a) 0xff0 = Z.land a 0xff0.
Proof.
  unfold low_half, u32. rewrite <- Z.land_ones by lia.
  change 0xff0 with (Z.shiftl (Z.ones 8) 4). Z.bitblast.
Qed.

(** X4: for an AP whose address has bits 4..11 clear (any 4 KiB aligned
    AP), the value the handlers write to SELECT as third access can be
    taken apart again: its bits 4..11 are the bank bits of the offset
    and the rest is the low half of the AP address. *)
Theorem ap_access_select_decodes
    (ap : adiv6_access_port_s) (addr value : Z) (w : world rest) :
  Z.land (ap_address ap) 0xff0 = 0 ->
  exists select,
    nth_error (events (snd (adiv6_ap_reg_read responses ap addr w)))
      (length (events w) + 2) = Some (DpWrite (u16 ADIV5_DP_SELECT) select)
    /\ nth_error (events (snd (adiv6_ap_reg_write ap addr value w)))
         (length (events w) + 2) = Some (DpWrite (u16 ADIV5_DP_SELECT) select)
    /\ Z.land select 0xff0 = bank_bits addr
    /\ Z.land select (Z.lnot 0xff0) = low_half (ap_address ap).
Proof.
  intros Haligned.
  exists (Z.lor (low_half (ap_address ap)) (bank_bits addr)).
  rewrite run_ap_reg_read, run_ap_reg_write. cbn [snd events].
  rewrite !nth_error_app2 by lia.
  replace (length (events w) + 2 - length (events w))%nat with 2%nat by lia.
  cbn [nth_error].
  rewrite <- low_half_land_0xff0 in Haligned.
  rewrite !Z.land_lor_distr_l.
  rewrite Haligned, bank_bits_in_window.
  rewrite (land_lnot_of_disjoint _ _ Haligned).
  rewrite (land_lnot_of_inside _ _ (bank_bits_in_window addr)).
  rewrite Z.lor_0_l, Z.lor_0_r. repeat split.
Qed.

(** Bits 4..7 and 12..15 of the offset are all the bank bits look at. *)
Lemma bank_bits_same_bank (addr1 addr2 : Z) :
  Z.land addr1 0xf0f0 = Z.land addr2 0xf0f0 ->
  bank_bits addr1 = bank_bits addr2.
Proof.
  intros Hsame.
  assert (Hbit : forall k, 4 <= k < 8 \/ 12 <= k < 16 ->
                 Z.testbit addr1 k = Z.testbit addr2 k).
  { intros k Hk.
    assert (Hm : Z.testbit 0xf0f0 k = true).
    { assert (Hcases : k = 4 \/ k = 5 \/ k = 6 \/ k = 7 \/
                       k = 12 \/ k = 13 \/ k = 14 \/ k = 15) by lia.
      repeat (destruct Hcases as [->|Hcases]; [reflexivity|]).
      subst k. reflexivity. }
    pose proof (f_equal (fun z => Z.testbit z k) Hsame) as Hk'.
    cbv beta in Hk'. rewrite !Z.land_spec, Hm, !andb_true_r in Hk'.
    exact Hk'. }
  apply Z.bits_inj'. intros k Hk.
  rewrite !bank_bits_testbit, !Z.land_spec by lia.
  destruct (Z.leb_spec 4 k), (Z.ltb_spec k 8), (Z.leb_spec 8 k),
    (Z.ltb_spec k 12); try lia; cbn [andb orb];
    rewrite ?orb_false_r; try reflexivity.
  - rewrite (Hbit k) by lia. reflexivity.
  - rewrite (Hbit (k + 4)) by lia. reflexivity.
Qed.

(** X5: two offsets that agree on bits 4..7 and 12..15, as the
    registers of one bank do, get the same three SELECT/SELECT1 writes;
    the accesses differ in their last event only. *)
Theorem ap_access_same_bank_same_window
    (ap : adiv6_access_port_s) (addr1 addr2 : Z) (w : world rest) :
  Z.land addr1 0xf0f0 = Z.land addr2 0xf0f0 ->
  exists window,
    length window = 3%nat
    /\ events (snd (adiv6_ap_reg_read responses ap addr1 w)) =
       events w ++ window ++
       [DpRead (u16 addr1) (u32 (responses (reads_so_far (events w))))]
    /\ events (snd (adiv6_ap_reg_read responses ap addr2 w)) =
       events w ++ window ++
       [DpRead (u16 addr2) (u32 (responses (reads_so_far (events w))))].
Proof.
  intros Hsame.
  exists [ DpWrite (u16 ADIV5_DP_SELECT) (u32 ADIV5_DP_BANK5);
           DpWrite (u16 ADIV6_DP_SELECT1) (high_half (ap_address ap));
           DpWrite (u16 ADIV5_DP_SELECT)
             (Z.lor (low_half (ap_address ap)) (bank_bits addr2)) ].
  rewrite !run_ap_reg_read. cbn [snd events].
  rewrite (bank_bits_same_bank addr1 addr2 Hsame).
  repeat split.
Qed.

(** *** Component identification *)

Lemma cidr_of_bytes_lanes (r0 r1 r2 r3 : Z) :
  let cidr := cidr_of_bytes (Z.land r0 (Z.ones 8)) (Z.land r1 (Z.ones 8))
                            (Z.land r2 (Z.ones 8)) (Z.land r3 (Z.ones 8)) in
  Z.land cidr (Z.ones 32) = cidr
  /\ Z.land cidr (Z.ones 8) = Z.land r0 (Z.ones 8)
  /\ Z.land (Z.shiftr cidr 8) (Z.ones 8) = Z.land r1 (Z.ones 8)
  /\ Z.land (Z.shiftr cidr 16) (Z.ones 8) = Z.land r2 (Z.ones 8)
  /\ Z.land (Z.shiftr cidr 24) (Z.ones 8) = Z.land r3 (Z.ones 8).
Proof.
  cbv zeta. unfold cidr_of_bytes. repeat split; Z.bitblast.
Qed.

(** X6: the value [adiv6_dp_read_id] returns fits 32 bits, and each of
    its four bytes gives back the low byte of the read it came from:
    byte [i] of the result is the [i]-th answer modulo 256. *)
Theorem dp_read_id_bytes_recovered
    (ap : adiv6_access_port_s) (addr : Z) (w : world rest) :
  let n := reads_so_far (events w) in
  let cidr := fst (adiv6_dp_read_id responses ap addr w) in
  is_u32 cidr
  /\ Z.land cidr 0xff = responses n mod 2 ^ 8
  /\ Z.land (Z.shiftr cidr 8) 0xff = responses (n + 1)%nat mod 2 ^ 8
  /\ Z.land (Z.shiftr cidr 16) 0xff = responses (n + 2)%nat mod 2 ^ 8
  /\ Z.land (Z.shiftr cidr 24) 0xff = responses (n + 3)%nat mod 2 ^ 8.
Proof.
  cbv zeta. rewrite run_dp_read_id. cbn [fst].
  unfold discovered_cidr, cidr_byte, cidr_read.
  change 0xff with (Z.ones 8).
  destruct (cidr_of_bytes_lanes
              (u32 (responses (reads_so_far (events w) + 0)))
              (u32 (responses (reads_so_far (events w) + 1)))
              (u32 (responses (reads_so_far (events w) + 2)))
              (u32 (responses (reads_so_far (events w) + 3))))
    as (H32 & H0 & H1 & H2 & H3).
  cbv zeta in H32.
  split.
  - unfold is_u32. rewrite <- H32, Z.land_ones by lia.
    apply Z.mod_pos_bound. lia.
  - rewrite H0, H1, H2, H3.
    change (Z.ones 8) with 0xff. rewrite !low_byte_u32, Nat.add_0_r.
    repeat split.
Qed.

(** X7: when the preamble check passes, [adiv6_component_probe] still
    returns false, and does so without any diagnostic: its log ends with
    the fourth CIDR read. *)
Theorem component_probe_silent_on_match
    (base_address entry_number : Z) (w : world rest) :
  Z.land (discovered_cidr responses w) (Z.lnot CID_CLASS_MASK) = CID_PREAMBLE ->
  adiv6_component_probe responses base_address entry_number w =
  (false,
   {| handle := handle w;
      events := events w ++
                read_id_events responses w base_address CIDR0_OFFSET |}).
Proof.
  intros Hmatch. rewrite run_component_probe, Hmatch, Z.eqb_refl.
  reflexivity.
Qed.

(** X8: whatever the device answers, [adiv6_component_probe] makes
    exactly four register reads, stores nothing into the DP handle and
    leaves it as it was. *)
Theorem component_probe_footprint
    (base_address entry_number : Z) (w : world rest) :
  let w' := snd (adiv6_component_probe responses base_address entry_number w) in
  reads_so_far (events w') = (reads_so_far (events w) + 4)%nat
  /\ handle w' = handle w
  /\ exists new, events w' = events w ++ new /\ handle_stores new = [].
Proof.
  cbv zeta. rewrite run_component_probe.
  destruct (Z.land _ (Z.lnot CID_CLASS_MASK) =? CID_PREAMBLE);
    cbn [snd handle events]; rewrite !reads_so_far_app;
    (split; [reflexivity|]); (split; [reflexivity|]);
    eexists; (split; [reflexivity|reflexivity]).
Qed.

(** *** Discovery *)

(** For a width below 64 the width check of [adiv6_dp_init] is the
    comparison of the candidate with [2^width]. *)
Lemma width_check_ltb (base n : Z) :
  0 <= base -> 0 <= n < 64 ->
  (Z.land base (sub64 (shl64 shl64_wide 1 n) 1) =? base) = (base <? 2 ^ n).
Proof.
  intros Hb Hn. rewrite width_mask by lia.
  rewrite Z.land_ones by lia.
  assert (0 < 2 ^ n) by (apply Z.pow_pos_nonneg; lia).
  pose proof (Z.mod_pos_bound base (2 ^ n) ltac:(lia)) as Hmod.
  destruct (Z.eqb_spec (base mod 2 ^ n) base) as [Heq|Hne],
    (Z.ltb_spec base (2 ^ n)) as [Hlt|Hge]; try reflexivity.
  - lia.
  - rewrite Z.mod_small in Hne by lia. contradiction.
Qed.

Lemma candidate_nonneg (w : world rest) :
  0 <= candidate_base responses shl64_wide w.
Proof. unfold candidate_base. apply combine_range. Qed.

(** X10: with a discovered width below 64, [adiv6_dp_init] makes seven
    register reads when the candidate base address is flagged valid and
    lies below [2^width] (three for discovery, four for the CIDR), and
    three reads in every other case. *)
Theorem dp_init_read_count (w : world rest) :
  let base := candidate_base responses shl64_wide w in
  let width := discovered_width responses w in
  width < 64 ->
  reads_so_far (events (snd (adiv6_dp_init responses shl64_wide w))) =
  Nat.add (reads_so_far (events w))
    (if negb (Z.land base ADIV6_DP_BASEPTR0_VALID =? 0) && (base <? 2 ^ width)
     then 7%nat else 3%nat).
Proof.
  cbv zeta. intros Hwidth.
  pose proof (discovered_width_nonneg responses w) as Hnn.
  rewrite run_dp_init. cbv zeta.
  rewrite width_check_ltb by (try apply candidate_nonneg; lia).
  assert (Hdisc : reads_so_far (events (after_discovery responses w)) =
                  (reads_so_far (events w) + 3)%nat).
  { cbn [after_discovery events]. rewrite reads_so_far_app. reflexivity. }
  destruct (Z.land _ ADIV6_DP_BASEPTR0_VALID =? 0); cbn [negb andb].
  - cbn [snd events]. rewrite reads_so_far_app, Hdisc. cbn. lia.
  - destruct (candidate_base responses shl64_wide w
              <? 2 ^ discovered_width responses w).
    + rewrite run_component_probe.
      destruct (Z.land _ (Z.lnot CID_CLASS_MASK) =? CID_PREAMBLE);
        cbn [snd events]; rewrite !reads_so_far_app, Hdisc; cbn; lia.
    + cbn [snd events]. rewrite reads_so_far_app, Hdisc. cbn. lia.
Qed.

(** X11: when the address-size field of DPIDR1 reads 0, no candidate
    gets through: the validity flag is itself bit 0 of the candidate, so
    a candidate flagged valid is refused by the width check, and
    [adiv6_dp_init] stops after the three discovery reads. *)
Theorem dp_init_width_zero (w : world rest) :
  let base := candidate_base responses shl64_wide w in
  discovered_width responses w = 0 ->
  adiv6_dp_init responses shl64_wide w =
  (false,
   {| handle := initialised_handle responses w;
      events := events w ++ discovery_events responses w ++
        [DebugInfo (if Z.land base ADIV6_DP_BASEPTR0_VALID =? 0
                    then No_valid_base_address
                    else Bad_base_address (high_half base) (low_half base))] |}).
Proof.
  cbv zeta. intros Hzero.
  pose proof (candidate_nonneg w) as Hbase.
  rewrite run_dp_init. cbv zeta. rewrite Hzero.
  rewrite width_check_ltb by lia.
  change (events (after_discovery responses w))
    with (events w ++ discovery_events responses w).
  change (handle (after_discovery responses w))
    with (initialised_handle responses w).
  rewrite <- !app_assoc.
  destruct (Z.eqb_spec (Z.land (candidate_base responses shl64_wide w)
                          ADIV6_DP_BASEPTR0_VALID) 0) as [Hclear|Hset];
    [reflexivity|].
  destruct (Z.ltb_spec (candidate_base responses shl64_wide w) (2 ^ 0))
    as [Hlt|Hge]; [|reflexivity].
  exfalso. apply Hset.
  replace (candidate_base responses shl64_wide w) with 0
    by (change (2 ^ 0) with 1 in Hlt; lia).
  reflexivity.
Qed.

(** X12: [adiv6_dp_init] does not look at what the handle held before:
    started from two states with the same log, it returns the same
    result, logs the same events and leaves the same handlers and
    address width, whatever the three fields held at the start. *)
Theorem dp_init_ignores_old_handle (w1 w2 : world rest) :
  events w1 = events w2 ->
  let r1 := adiv6_dp_init responses shl64_wide w1 in
  let r2 := adiv6_dp_init responses shl64_wide w2 in
  fst r1 = fst r2
  /\ events (snd r1) = events (snd r2)
  /\ ap_read (handle (snd r1)) = ap_read (handle (snd r2))
  /\ ap_write (handle (snd r1)) = ap_write (handle (snd r2))
  /\ address_width (handle (snd r1)) = address_width (handle (snd r2)).
Proof.
  destruct w1 as [h1 l1], w2 as [h2 l2]. cbn [events]. intros <-.
  cbv zeta. rewrite !run_dp_init. cbv zeta.
  rewrite !run_component_probe.
  unfold candidate_base, discovered_width, discovered_dpidr1,
    discovered_baseptr0, discovered_baseptr1, discovered_cidr, cidr_byte,
    cidr_read, read_id_events, after_discovery, initialised_handle,
    discovery_events, discovered_width, discovered_dpidr1,
    discovered_baseptr0, discovered_baseptr1, cidr_read.
  cbn [handle events].
  destruct (Z.land _ ADIV6_DP_BASEPTR0_VALID =? 0);
    [|destruct (Z.land _ (sub64 _ 1) =? _);
      [destruct (Z.land _ (Z.lnot CID_CLASS_MASK) =? CID_PREAMBLE)|]];
    cbn [fst snd handle events ap_read ap_write address_width];
    repeat split.
Qed.

End Further.

(** ** The further properties on concrete inputs *)

Lemma ap_access_select_decodes_witness :
  Z.land 0x1234567800002000 0xff0 = 0 /\
  exists select,
    nth_error
      (events (snd (adiv6_ap_reg_read (hdr := Sample.header)
                      (Sample.device [0xcafe])
                      {| ap_address := 0x1234567800002000 |} 0x1d14
                      Sample.start)))
      (length (events Sample.start) + 2) =
      Some (DpWrite (u16 (ADIV5_DP_SELECT (Adiv6Header := Sample.header))) select)
    /\ nth_error
         (events (snd (adiv6_ap_reg_write (hdr := Sample.header)
                         {| ap_address := 0x1234567800002000 |} 0x1d14 99
                         Sample.start)))
         (length (events Sample.start) + 2) =
         Some (DpWrite (u16 (ADIV5_DP_SELECT (Adiv6Header := Sample.header))) select)
    /\ Z.land select 0xff0 = bank_bits (hdr := Sample.header) 0x1d14
    /\ Z.land select (Z.lnot 0xff0) = low_half 0x1234567800002000.
Proof.
  split; [reflexivity|].
  apply (ap_access_select_decodes (hdr := Sample.header) (Sample.device [0xcafe])
           {| ap_address := 0x1234567800002000 |} 0x1d14 99 Sample.start).
  reflexivity.
Defined.

Lemma ap_access_same_bank_same_window_witness :
  Z.land 0x1d04 0xf0f0 = Z.land 0x1d0c 0xf0f0 /\
  exists window,
    length window = 3%nat
    /\ events (snd (adiv6_ap_reg_read (hdr := Sample.header)
                      (Sample.device [0xcafe])
                      {| ap_address := 0x2000 |} 0x1d04 Sample.start)) =
       events Sample.start ++ window ++ [DpRead (u16 0x1d04) (u32 0xcafe)]
    /\ events (snd (adiv6_ap_reg_read (hdr := Sample.header)
                      (Sample.device [0xcafe])
                      {| ap_address := 0x2000 |} 0x1d0c Sample.start)) =
       events Sample.start ++ window ++ [DpRead (u16 0x1d0c) (u32 0xcafe)].
Proof.
  split; [reflexivity|].
  apply (ap_access_same_bank_same_window (hdr := Sample.header)
           (Sample.device [0xcafe]) {| ap_address := 0x2000 |}
           0x1d04 0x1d0c Sample.start).
  reflexivity.
Defined.

Lemma component_probe_silent_on_match_witness :
  Z.land (discovered_cidr (Sample.device [0x0d; 0x10; 0x05; 0xb1]) Sample.start)
         (Z.lnot (CID_CLASS_MASK (Adiv6Header := Sample.header)))
    = CID_PREAMBLE (Adiv6Header := Sample.header) /\
  adiv6_component_probe (hdr := Sample.header)
    (Sample.device [0x0d; 0x10; 0x05; 0xb1]) 0x1000 0 Sample.start =
    (false,
     {| handle := handle Sample.start;
        events := events Sample.start ++
                  read_id_events (hdr := Sample.header)
                    (Sample.device [0x0d; 0x10; 0x05; 0xb1]) Sample.start 0x1000
                    (CIDR0_OFFSET (Adiv6Header := Sample.header)) |}).
Proof.
  split; [reflexivity|].
  apply (component_probe_silent_on_match (hdr := Sample.header)
           (Sample.device [0x0d; 0x10; 0x05; 0xb1]) 0x1000 0 Sample.start).
  reflexivity.
Defined.

Lemma dp_init_read_count_witness :
  (discovered_width (hdr := Sample.header) Sample.good_device Sample.start < 64 /\
   reads_so_far
     (events (snd (adiv6_dp_init (hdr := Sample.header) Sample.good_device
                     Sample.shl_zero Sample.start))) = 7%nat)
  /\
  (discovered_width (hdr := Sample.header) Sample.too_wide_device Sample.start < 64 /\
   reads_so_far
     (events (snd (adiv6_dp_init (hdr := Sample.header) Sample.too_wide_device
                     Sample.shl_zero Sample.start))) = 3%nat).
Proof.
  split; (split; [reflexivity|]).
  - exact (dp_init_read_count (hdr := Sample.header) Sample.good_device
             Sample.shl_zero Sample.start eq_refl).
  - exact (dp_init_read_count (hdr := Sample.header) Sample.too_wide_device
             Sample.shl_zero Sample.start eq_refl).
Defined.

Lemma dp_init_width_zero_witness :
  discovered_width (hdr := Sample.header)
    (Sample.device [0x80; 0x00001001; 0x00000000]) Sample.start = 0 /\
  adiv6_dp_init (hdr := Sample.header)
    (Sample.device [0x80; 0x00001001; 0x00000000]) Sample.shl_zero Sample.start =
    (false,
     {| handle := initialised_handle (hdr := Sample.header)
                    (Sample.device [0x80; 0x00001001; 0x00000000]) Sample.start;
        events := events Sample.start ++
                  discovery_events (hdr := Sample.header)
                    (Sample.device [0x80; 0x00001001; 0x00000000]) Sample.start ++
                  [DebugInfo (Bad_base_address 0x00000000 0x00001001)] |}).
Proof.
  split; [reflexivity|].
  exact (dp_init_width_zero (hdr := Sample.header)
           (Sample.device [0x80; 0x00001001; 0x00000000]) Sample.shl_zero
           Sample.start eq_refl).
Defined.

Lemma dp_init_ignores_old_handle_witness :
  let used : world nat :=
    {| handle := {| ap_read := Adiv6_ap_reg_read;
                    ap_write := Other_ap_write 3;
                    address_width := 52;
                    dp_rest := 1%nat |};
       events := [] |} in
  let r1 := adiv6_dp_init (hdr := Sample.header) Sample.good_device
              Sample.shl_zero Sample.start in
  let r2 := adiv6_dp_init (hdr := Sample.header) Sample.good_device
              Sample.shl_zero used in
  events Sample.start = events used /\
  fst r1 = fst r2
  /\ events (snd r1) = events (snd r2)
  /\ ap_read (handle (snd r1)) = ap_read (handle (snd r2))
  /\ ap_write (handle (snd r1)) = ap_write (handle (snd r2))
  /\ address_width (handle (snd r1)) = address_width (handle (snd r2)).
Proof.
  cbv zeta. split; [reflexivity|].
  apply (dp_init_ignores_old_handle (hdr := Sample.header) Sample.good_device
           Sample.shl_zero Sample.start).
  reflexivity.
Defined.
